(** * salt.states.mysql_grants: the [present] and [absent] grant states

    A shallow embedding of [salt/states/mysql_grants.py].  The two state
    functions talk to the execution module through the ambient [__salt__]
    dictionary and read the dry-run flag from [__opts__]; both are made
    explicit here.  The execution module is a parameter: a record of three
    state-passing functions over an arbitrary backend state.  Every call
    that goes through [__salt__] is appended to a trace, so that the
    theorems can speak about which calls were made and in which order. *)

From Stdlib Require Import Ascii.
From stdpp Require Import gmap strings list.

(** ** Python values *)

(** What the module tests on the values returned through [__salt__]:
    [is True], [is None], [is False] and plain truthiness. *)
Inductive pyval : Type :=
  | PyNone
  | PyTrue
  | PyFalse.

Definition is_True (v : pyval) : bool :=
  match v with PyTrue => true | _ => false end.

Definition is_None (v : pyval) : bool :=
  match v with PyNone => true | _ => false end.

Definition is_False (v : pyval) : bool :=
  match v with PyFalse => true | _ => false end.

(** [if v:] *)
Definition truthy (v : pyval) : bool :=
  match v with PyTrue => true | PyNone | PyFalse => false end.

(** An argument whose default is [None]: either [None] or a [str].
    [py_str] is what [str.format] renders for it. *)
Definition py_str (v : option string) : string :=
  match v with
  | Some s => s
  | None => "None"
  end.

(** The one-character string holding a double quote. *)
Definition dquote : string := String (ascii_of_nat 34) EmptyString.

(** ** [str.format]

    The templates of this module only use the positional fields [{0}] to
    [{3}], so this is the fragment of the format language that is modelled:
    a field is an opening brace, one decimal digit and a closing brace, and
    it is replaced by the argument at that position.  Python raises on a
    position past the last argument; here the field is replaced by the
    empty string, and [templates_in_range] below shows that no template of
    the module gets there. *)
Definition digit_of_ascii (c : ascii) : option nat :=
  let n := nat_of_ascii c in
  if (48 <=? n)%nat && (n <=? 57)%nat then Some (n - 48) else None.

Fixpoint format (template : string) (args : list string) : string :=
  match template with
  | EmptyString => EmptyString
  | String c rest =>
      match rest with
      | String d (String e rest') =>
          match digit_of_ascii d with
          | Some n =>
              if Ascii.eqb c "{" && Ascii.eqb e "}"
              then nth n args EmptyString +:+ format rest' args
              else String c (format rest args)
          | None => String c (format rest args)
          end
      | _ => String c (format rest args)
      end
  end.

(** The highest position a template refers to, plus one. *)
Fixpoint arity (template : string) : nat :=
  match template with
  | EmptyString => 0
  | String c rest =>
      match rest with
      | String d (String e rest') =>
          match digit_of_ascii d with
          | Some n =>
              if Ascii.eqb c "{" && Ascii.eqb e "}"
              then Nat.max (S n) (arity rest')
              else arity rest
          | None => arity rest
          end
      | _ => arity rest
      end
  end.

(** [sub in s] *)
Definition Contains (sub s : string) : Prop :=
  ∃ pre post, s = pre +:+ sub +:+ post.

(** ** The returned dictionary *)

(** [{'name': ..., 'changes': {...}, 'result': ..., 'comment': ...}];
    [result] is [True], [False] or [None]. *)
Record ret : Type := mkRet {
  name : string;
  changes : gmap string string;
  result : option bool;
  comment : string
}.

Definition set_result (v : option bool) (r : ret) : ret :=
  {| name := name r; changes := changes r; result := v; comment := comment r |}.

Definition set_comment (c : string) (r : ret) : ret :=
  {| name := name r; changes := changes r; result := result r; comment := c |}.

(** [ret['changes'][k] = v] *)
Definition set_change (k v : string) (r : ret) : ret :=
  {| name := name r; changes := <[k := v]> (changes r);
     result := result r; comment := comment r |}.

(** ** The execution module behind [__salt__] *)

(** One entry of the trace: the function called and its arguments. *)
Inductive call : Type :=
  | GrantExists (privileges database user : option string) (host : string)
                (grant_option escape : bool)
  | GrantAdd (privileges database user : option string) (host : string)
             (grant_option escape : bool)
  | GrantRevoke (privileges database user : option string) (host : string)
                (grant_option : bool).

(** [mysql.grant_exists] only reads; the other two change the database. *)
Definition is_mutation (c : call) : bool :=
  match c with
  | GrantExists _ _ _ _ _ _ => false
  | GrantAdd _ _ _ _ _ _ => true
  | GrantRevoke _ _ _ _ _ => true
  end.

Definition mutations (tr : list call) : list call := List.filter is_mutation tr.

(** The three entries of [__salt__] the module uses, over a backend state
    [S].  Nothing is assumed about them. *)
Record Salt (S : Type) : Type := mkSalt {
  mysql_grant_exists :
    option string → option string → option string → string → bool → bool →
    S → pyval * S;
  mysql_grant_add :
    option string → option string → option string → string → bool → bool →
    S → pyval * S;
  mysql_grant_revoke :
    option string → option string → option string → string → bool →
    S → pyval * S
}.
Arguments mysql_grant_exists {S}.
Arguments mysql_grant_add {S}.
Arguments mysql_grant_revoke {S}.

(** The world a state function runs in: the backend and the calls made so far. *)
Record world (S : Type) : Type := mkWorld {
  backend : S;
  trace : list call
}.
Arguments mkWorld {S}.
Arguments backend {S}.
Arguments trace {S}.

(** ** A state monad over the world *)

Definition M (S A : Type) : Type := world S → A * world S.

Definition pure {S A} (a : A) : M S A := λ w, (a, w).

Definition bind {S A B} (m : M S A) (k : A → M S B) : M S B :=
  λ w, let '(a, w') := m w in k a w'.

Notation "x <- m ;; k" := (bind m (λ x, k))
  (at level 100, m at next level, right associativity, only parsing).

(** Run a backend function on the current backend state and log the call. *)
Definition invoke {S} (c : call) (f : S → pyval * S) : M S pyval :=
  λ w, let '(v, s') := f (backend w) in
       (v, {| backend := s'; trace := trace w ++ [c] |}).

Section States.
Context {S : Type}.
(** [__salt__] *)
Variable salt : Salt S.
(** [__opts__['test']] *)
Variable opts_test : bool.

Definition salt_grant_exists privileges database user host grant_option escape
  : M S pyval :=
  invoke (GrantExists privileges database user host grant_option escape)
         (mysql_grant_exists salt privileges database user host grant_option escape).

Definition salt_grant_add privileges database user host grant_option escape
  : M S pyval :=
  invoke (GrantAdd privileges database user host grant_option escape)
         (mysql_grant_add salt privileges database user host grant_option escape).

Definition salt_grant_revoke privileges database user host grant_option
  : M S pyval :=
  invoke (GrantRevoke privileges database user host grant_option)
         (mysql_grant_revoke salt privileges database user host grant_option).

(** [if privileges is None and grant is not None: privileges = grant],
    the statement both state functions share. *)
Definition effective_privileges (privileges grant : option string)
  : option string :=
  match privileges, grant with
  | None, Some _ => grant
  | _, _ => privileges
  end.

(** [present], lines 53 to 131.  The local [ret] dictionary is updated
    functionally, in the order of the assignments of the source. *)
Definition present (name : string) (privileges grant database user : option string)
    (host : string) (grant_option escape : bool) : M S ret :=
  let privileges := effective_privileges privileges grant in
  let comment_ := "Grant {0} on {1} to {2}@{3} is already present" in
  let ret :=
    {| name := name;
       changes := ∅;
       result := Some true;
       comment := format comment_
                    [py_str privileges; py_str database; py_str user; host] |} in
  grant_exists <- salt_grant_exists privileges database user host grant_option escape ;;
  if is_True grant_exists then pure ret
  else if opts_test then
    let ret := set_result None ret in
    let ret := set_comment (format "MySQL grant {0} is set to be created" [name]) ret in
    pure ret
  else
    ret <- (if is_None grant_exists then
              revoked <- salt_grant_revoke (Some "ALL PRIVILEGES")
                           database user host grant_option ;;
              if is_False revoked then
                let ret :=
                  set_comment
                    (format ("Failed to remove previous grant before applying new"
                             +:+ " grant: " +:+ dquote
                             +:+ "GRANT {0} ON {1} TO {2}@{3}" +:+ dquote)
                       [py_str privileges; py_str database; py_str user; host]) ret in
                pure (set_result (Some false) ret)
              else pure ret
            else pure ret) ;;
    added <- salt_grant_add privileges database user host grant_option escape ;;
    if truthy added then
      let ret := set_comment "Grant {0} on {1} to {2}@{3} has been added" ret in
      let ret :=
        set_comment
          (format (comment ret)
             [py_str privileges; py_str database; py_str user; host]) ret in
      pure (set_change name "Present" ret)
    else
      let ret :=
        set_comment ("Failed to execute: " +:+ dquote
                     +:+ "GRANT {0} ON {1} TO {2}@{3}" +:+ dquote) ret in
      let ret :=
        set_comment
          (format (comment ret)
             [py_str privileges; py_str database; py_str user; host]) ret in
      pure (set_result (Some false) ret).

(** [absent], lines 134 to 205.  [fallback] is the code after the outer
    [if], which is reached both when the existence check is falsy and when
    the revoke call is.  On line 193 the formatted string is computed and
    dropped: [ret['comment']] keeps the template. *)
Definition absent (name : string) (privileges grant database user : option string)
    (host : string) (grant_option escape : bool) : M S ret :=
  let ret :=
    {| name := name;
       changes := ∅;
       result := Some true;
       comment := EmptyString |} in
  let privileges := effective_privileges privileges grant in
  let fallback ret : M S _ :=
    pure (set_comment
            (format ("Grant {0} on {1} to {2}@{3} is not present, so it"
                     +:+ " cannot be revoked")
               [py_str privileges; py_str database; py_str user; host]) ret) in
  grant_exists <- salt_grant_exists privileges database user host grant_option escape ;;
  if truthy grant_exists then
    if opts_test then
      let ret := set_result None ret in
      let ret := set_comment "MySQL grant {0} is set to be revoked" ret in
      let ret := set_comment (format (comment ret) [name]) ret in
      pure ret
    else
      revoked <- salt_grant_revoke privileges database user host grant_option ;;
      if truthy revoked then
        let ret := set_comment "Grant {0} on {1} for {2}@{3} has been revoked" ret in
        let _ := format (comment ret)
                   [py_str privileges; py_str database; py_str user; host] in
        pure (set_change name "Absent" ret)
      else fallback ret
  else fallback ret.

End States.

(** ** A scripted execution module

    Used to run the state functions on concrete inputs.  The backend state
    is the list of answers still to be given; each call, whatever its
    arguments, takes the next one ([False] once the script is over). *)
Definition answer (script : list pyval) : pyval * list pyval :=
  match script with
  | [] => (PyFalse, [])
  | v :: script' => (v, script')
  end.

Definition scripted : Salt (list pyval) :=
  {| mysql_grant_exists := λ _ _ _ _ _ _, answer;
     mysql_grant_add := λ _ _ _ _ _ _, answer;
     mysql_grant_revoke := λ _ _ _ _ _, answer |}.

(** The calls a computation makes when started in world [w]. *)
Definition calls_made {S A} (m : M S A) (w : world S) : list call :=
  drop (length (trace w)) (trace (m w).2).

(** ** The records the state functions return

    One per exit of the two functions, with the comments as [str.format]
    leaves them; [privileges] is the effective one. *)

Section Outcomes.
Variables (name : string) (privileges database user : option string).
Variable host : string.

(** The record [present] starts from, which is also what it returns when
    there is nothing to do. *)
Definition ret_already_present : ret :=
  mkRet name ∅ (Some true)
    ("Grant " +:+ py_str privileges +:+ " on " +:+ py_str database
     +:+ " to " +:+ py_str user +:+ "@" +:+ host +:+ " is already present").

(** What the dry run returns. *)
Definition ret_to_be_created : ret :=
  mkRet name ∅ None ("MySQL grant " +:+ name +:+ " is set to be created").

(** What is returned after a successful add; [res] is [False] when the
    revoke of a conflicting grant failed before, [True] otherwise. *)
Definition ret_grant_added (res : bool) : ret :=
  mkRet name {[ name := "Present" ]} (Some res)
    ("Grant " +:+ py_str privileges +:+ " on " +:+ py_str database
     +:+ " to " +:+ py_str user +:+ "@" +:+ host +:+ " has been added").

(** What is returned after a failed add. *)
Definition ret_grant_failed : ret :=
  mkRet name ∅ (Some false)
    ("Failed to execute: " +:+ dquote
     +:+ "GRANT " +:+ py_str privileges +:+ " ON " +:+ py_str database
     +:+ " TO " +:+ py_str user +:+ "@" +:+ host +:+ dquote).

(** The record [absent] falls back to: the grant is reported as not present. *)
Definition ret_not_present : ret :=
  mkRet name ∅ (Some true)
    ("Grant " +:+ py_str privileges +:+ " on " +:+ py_str database
     +:+ " to " +:+ py_str user +:+ "@" +:+ host
     +:+ " is not present, so it cannot be revoked").

(** What the dry run of [absent] returns. *)
Definition ret_to_be_revoked : ret :=
  mkRet name ∅ None ("MySQL grant " +:+ name +:+ " is set to be revoked").

(** What [absent] returns after a successful revoke: the comment is the
    template itself. *)
Definition ret_grant_revoked : ret :=
  mkRet name {[ name := "Absent" ]} (Some true)
    "Grant {0} on {1} for {2}@{3} has been revoked".

End Outcomes.

(** ** The states of the module's documentation

    [frank_exampledb] is the first state of the docstring (it passes the
    privileges through the deprecated [grant]).  The script lists what the
    backend answers, call after call. *)

Definition frank_present (test : bool) : M (list pyval) ret :=
  present scripted test "frank_exampledb" None (Some "select,insert,update")
    (Some "exampledb.*") (Some "frank") "localhost" false true.

Definition frank_absent (test : bool) : M (list pyval) ret :=
  absent scripted test "frank_exampledb" None (Some "select,insert,update")
    (Some "exampledb.*") (Some "frank") "localhost" false true.

Definition frank_exists : call :=
  GrantExists (Some "select,insert,update") (Some "exampledb.*") (Some "frank")
    "localhost" false true.

Definition frank_add : call :=
  GrantAdd (Some "select,insert,update") (Some "exampledb.*") (Some "frank")
    "localhost" false true.

Definition frank_revoke : call :=
  GrantRevoke (Some "select,insert,update") (Some "exampledb.*") (Some "frank")
    "localhost" false.

Definition frank_revoke_all : call :=
  GrantRevoke (Some "ALL PRIVILEGES") (Some "exampledb.*") (Some "frank")
    "localhost" false.

(** ** Loading the module *)

(** What [__virtual__] returns: the name the module loads under, or [False]. *)
Inductive virtual_result : Type :=
  | VirtualName (module : string)
  | VirtualFalse.

(** [__virtual__], lines 46 to 50.  Here [__salt__] is the dictionary
    itself: only its keys matter, so the values are of any type [V]. *)
Definition __virtual__ {V : Type} (__salt__ : gmap string V) : virtual_result :=
  if decide ("mysql.grant_exists" ∈ dom __salt__)
  then VirtualName "mysql_grants"
  else VirtualFalse.

(** * Properties *)

(** ** Templates and strings *)

(** Every template is formatted with as many arguments as its fields need:
    four for the grant messages, one for the dry-run messages. *)
Lemma templates_in_range :
  arity "Grant {0} on {1} to {2}@{3} is already present" ≤ 4 ∧
  arity "MySQL grant {0} is set to be created" ≤ 1 ∧
  arity ("Failed to remove previous grant before applying new"
         +:+ " grant: " +:+ dquote
         +:+ "GRANT {0} ON {1} TO {2}@{3}" +:+ dquote) ≤ 4 ∧
  arity "Grant {0} on {1} to {2}@{3} has been added" ≤ 4 ∧
  arity ("Failed to execute: " +:+ dquote
         +:+ "GRANT {0} ON {1} TO {2}@{3}" +:+ dquote) ≤ 4 ∧
  arity "MySQL grant {0} is set to be revoked" ≤ 1 ∧
  arity "Grant {0} on {1} for {2}@{3} has been revoked" ≤ 4 ∧
  arity ("Grant {0} on {1} to {2}@{3} is not present, so it"
         +:+ " cannot be revoked") ≤ 4.
Proof. vm_compute. repeat split; lia. Qed.

Lemma string_app_cons (x : ascii) (a b : string) :
  String x a +:+ b = String x (a +:+ b).
Proof. reflexivity. Qed.

Lemma string_app_nil_r (a : string) : a +:+ EmptyString = a.
Proof.
  induction a as [|x a IH]; [done|].
  by rewrite string_app_cons, IH.
Qed.

Lemma string_app_assoc (a b c : string) : (a +:+ b) +:+ c = a +:+ b +:+ c.
Proof.
  induction a as [|x a IH]; [done|].
  by rewrite !string_app_cons, IH.
Qed.

Lemma Contains_refl (sub : string) : Contains sub sub.
Proof.
  exists EmptyString, EmptyString.
  change (sub = sub +:+ EmptyString). by rewrite string_app_nil_r.
Qed.

Lemma Contains_app_r (sub a b : string) : Contains sub b → Contains sub (a +:+ b).
Proof.
  intros (pre & post & ->). exists (a +:+ pre), post.
  by rewrite string_app_assoc.
Qed.

Lemma Contains_cons (sub : string) (c : ascii) (s : string) :
  Contains sub s → Contains sub (String c s).
Proof. apply (Contains_app_r sub (String c EmptyString) s). Qed.

Lemma Contains_prefix (sub post : string) : Contains sub (sub +:+ post).
Proof. by exists EmptyString, post. Qed.

(** Walk down a string made of literals and appended variables until the
    searched literal starts. *)
Ltac find_substring :=
  solve [ repeat first
            [ apply Contains_prefix
            | apply Contains_refl
            | apply Contains_cons
            | apply Contains_app_r ] ].

(** ** The monad *)

Lemma bind_pure {S A B} (a : A) (k : A → M S B) (w : world S) :
  bind (pure a) k w = k a w.
Proof. reflexivity. Qed.

Lemma bind_assoc {S A B C} (m : M S A) (f : A → M S B) (g : B → M S C)
    (w : world S) :
  bind (bind m f) g w = bind m (λ a, bind (f a) g) w.
Proof. unfold bind. by destruct (m w). Qed.

Lemma bind_invoke {S B} (c : call) (f : S → pyval * S) (k : pyval → M S B)
    (s : S) (tr : list call) (v : pyval) (s' : S) :
  f s = (v, s') →
  bind (invoke c f) k {| backend := s; trace := tr |}
  = k v {| backend := s'; trace := tr ++ [c] |}.
Proof. intros E. unfold bind, invoke. cbn [backend trace]. by rewrite E. Qed.

Lemma calls_made_spec {S A} (m : M S A) (w : world S) (cs : list call) :
  trace (m w).2 = trace w ++ cs → calls_made m w = cs.
Proof. intros E. unfold calls_made. rewrite E. apply drop_app_length. Qed.

(** Use the known answer [H] of the next call through [__salt__]. *)
Ltac answer_with H :=
  cbv beta iota; rewrite ?bind_pure, ?bind_assoc;
  unfold salt_grant_exists, salt_grant_add, salt_grant_revoke;
  rewrite (bind_invoke _ _ _ _ _ _ _ H);
  cbn [is_True is_None is_False truthy]; rewrite ?bind_pure.

(** ** The state functions *)

Section Reconcile.
Context {S : Type} (salt : Salt S).
Variables (name : string) (privileges grant database user : option string).
Variables (host : string) (grant_option escape : bool).

Local Notation privs := (effective_privileges privileges grant).
Local Notation exists_call :=
  (GrantExists privs database user host grant_option escape).
Local Notation add_call :=
  (GrantAdd privs database user host grant_option escape).
Local Notation revoke_all_call :=
  (GrantRevoke (Some "ALL PRIVILEGES") database user host grant_option).
Local Notation revoke_call :=
  (GrantRevoke privs database user host grant_option).
Local Notation present_ test :=
  (present salt test name privileges grant database user host grant_option escape).
Local Notation absent_ test :=
  (absent salt test name privileges grant database user host grant_option escape).

Local Notation already_present :=
  (ret_already_present name privs database user host).
Local Notation to_be_created := (ret_to_be_created name).
Local Notation grant_added res :=
  (ret_grant_added name privs database user host res).
Local Notation grant_failed := (ret_grant_failed name privs database user host).
Local Notation not_present := (ret_not_present name privs database user host).
Local Notation to_be_revoked := (ret_to_be_revoked name).
Local Notation grant_revoked := (ret_grant_revoked name).

(** *** The four paths through [present] *)

Lemma present_run_exists (test : bool) (s0 s1 : S) (tr : list call) :
  mysql_grant_exists salt privs database user host grant_option escape s0
    = (PyTrue, s1) →
  present_ test {| backend := s0; trace := tr |}
  = (already_present, {| backend := s1; trace := tr ++ [exists_call] |}).
Proof. intros Hex. unfold present. by answer_with Hex. Qed.

Lemma present_run_dry (x : pyval) (s0 s1 : S) (tr : list call) :
  mysql_grant_exists salt privs database user host grant_option escape s0
    = (x, s1) →
  is_True x = false →
  present_ true {| backend := s0; trace := tr |}
  = (to_be_created, {| backend := s1; trace := tr ++ [exists_call] |}).
Proof. intros Hex Hx. unfold present. answer_with Hex. by rewrite Hx. Qed.

Lemma present_run_add (added : pyval) (s0 s1 s2 : S) (tr : list call) :
  mysql_grant_exists salt privs database user host grant_option escape s0
    = (PyFalse, s1) →
  mysql_grant_add salt privs database user host grant_option escape s1
    = (added, s2) →
  present_ false {| backend := s0; trace := tr |}
  = (if truthy added then grant_added true else grant_failed,
     {| backend := s2; trace := tr ++ [exists_call; add_call] |}).
Proof.
  intros Hex Hadd. unfold present. answer_with Hex. answer_with Hadd.
  rewrite <- app_assoc. unfold ret_grant_added. rewrite <- insert_empty.
  by destruct (truthy added).
Qed.

Lemma present_run_conflict (revoked added : pyval) (s0 s1 s2 s3 : S)
    (tr : list call) :
  mysql_grant_exists salt privs database user host grant_option escape s0
    = (PyNone, s1) →
  mysql_grant_revoke salt (Some "ALL PRIVILEGES") database user host grant_option s1
    = (revoked, s2) →
  mysql_grant_add salt privs database user host grant_option escape s2
    = (added, s3) →
  present_ false {| backend := s0; trace := tr |}
  = (if truthy added then grant_added (negb (is_False revoked)) else grant_failed,
     {| backend := s3;
        trace := tr ++ [exists_call; revoke_all_call; add_call] |}).
Proof.
  intros Hex Hrev Hadd. unfold present. answer_with Hex. answer_with Hrev.
  unfold ret_grant_added. rewrite <- insert_empty.
  destruct (is_False revoked); answer_with Hadd; rewrite <- !app_assoc;
    by destruct (truthy added).
Qed.

(** *** The claims about [present] *)

(** C6: when the existence check answers [True], [present] returns at once,
    in either mode: the only call made is the existence check, so no grant
    is added or revoked; [changes] is empty, [result] is [True] and the
    comment contains "already present". *)
Theorem present_exists_noop (test : bool) (s0 s1 : S) (tr : list call) :
  mysql_grant_exists salt privs database user host grant_option escape s0
    = (PyTrue, s1) →
  calls_made (present_ test) (mkWorld s0 tr) = [exists_call]
  ∧ mutations (calls_made (present_ test) (mkWorld s0 tr)) = []
  ∧ changes (present_ test (mkWorld s0 tr)).1 = ∅
  ∧ result (present_ test (mkWorld s0 tr)).1 = Some true
  ∧ Contains "already present" (comment (present_ test (mkWorld s0 tr)).1).
Proof.
  intros Hex. pose proof (present_run_exists test s0 s1 tr Hex) as E.
  assert (calls_made (present_ test) (mkWorld s0 tr) = [exists_call]) as Ec
    by (apply calls_made_spec; by rewrite E).
  rewrite Ec, E. repeat split.
  unfold ret_already_present; cbn [comment fst]. find_substring.
Qed.

(** C1: not in dry-run mode, when the existence check answers [None],
    [present] calls the backend three times: the check, then one revoke of
    "ALL PRIVILEGES" on the same database, user, host and grant option, then
    the add, whatever the revoke answered.  The revoke and the add are the
    only mutations. *)
Theorem present_conflict_calls (s0 s1 : S) (tr : list call) :
  mysql_grant_exists salt privs database user host grant_option escape s0
    = (PyNone, s1) →
  calls_made (present_ false) (mkWorld s0 tr)
    = [exists_call; revoke_all_call; add_call]
  ∧ mutations (calls_made (present_ false) (mkWorld s0 tr))
    = [revoke_all_call; add_call].
Proof.
  intros Hex.
  destruct (mysql_grant_revoke salt (Some "ALL PRIVILEGES") database user host
              grant_option s1) as [revoked s2] eqn:Hrev.
  destruct (mysql_grant_add salt privs database user host grant_option escape s2)
    as [added s3] eqn:Hadd.
  pose proof (present_run_conflict revoked added s0 s1 s2 s3 tr Hex Hrev Hadd) as E.
  assert (calls_made (present_ false) (mkWorld s0 tr)
          = [exists_call; revoke_all_call; add_call]) as Ec
    by (apply calls_made_spec; by rewrite E).
  by rewrite Ec.
Qed.

(** C7: not in dry-run mode, when the existence check answers [False], the
    add is the only mutation.  If it succeeds, [changes] maps the name to
    "Present", [result] is [True] and the comment contains "added"; if it
    fails, [changes] is empty, [result] is [False] and the comment is the
    "Failed to execute" message. *)
Theorem present_missing_grant_added (added : pyval) (s0 s1 s2 : S)
    (tr : list call) :
  mysql_grant_exists salt privs database user host grant_option escape s0
    = (PyFalse, s1) →
  mysql_grant_add salt privs database user host grant_option escape s1
    = (added, s2) →
  calls_made (present_ false) (mkWorld s0 tr) = [exists_call; add_call]
  ∧ (truthy added = true →
       changes (present_ false (mkWorld s0 tr)).1 = {[ name := "Present" ]}
       ∧ result (present_ false (mkWorld s0 tr)).1 = Some true
       ∧ Contains "added" (comment (present_ false (mkWorld s0 tr)).1))
  ∧ (truthy added = false →
       changes (present_ false (mkWorld s0 tr)).1 = ∅
       ∧ result (present_ false (mkWorld s0 tr)).1 = Some false
       ∧ comment (present_ false (mkWorld s0 tr)).1 = comment grant_failed
       ∧ Contains "Failed to execute" (comment (present_ false (mkWorld s0 tr)).1)).
Proof.
  intros Hex Hadd.
  pose proof (present_run_add added s0 s1 s2 tr Hex Hadd) as E.
  split; [apply calls_made_spec; by rewrite E|].
  rewrite E. split; intros ->; cbn [fst]; repeat split.
  - unfold ret_grant_added; cbn [comment]. find_substring.
  - unfold ret_grant_failed; cbn [comment].
    by eexists EmptyString, (": " +:+ _).
Qed.

(** C10: not in dry-run mode, when the existence check answers [None], the
    revoke of the conflicting grant answers [False] and the add succeeds,
    the returned record has [result] [False] together with [changes]
    mapping the name to "Present" and the comment "... has been added". *)
Theorem present_conflict_failed_revoke (added : pyval) (s0 s1 s2 s3 : S)
    (tr : list call) :
  mysql_grant_exists salt privs database user host grant_option escape s0
    = (PyNone, s1) →
  mysql_grant_revoke salt (Some "ALL PRIVILEGES") database user host grant_option s1
    = (PyFalse, s2) →
  mysql_grant_add salt privs database user host grant_option escape s2
    = (added, s3) →
  truthy added = true →
  result (present_ false (mkWorld s0 tr)).1 = Some false
  ∧ changes (present_ false (mkWorld s0 tr)).1 = {[ name := "Present" ]}
  ∧ comment (present_ false (mkWorld s0 tr)).1
    = "Grant " +:+ py_str privs +:+ " on " +:+ py_str database
      +:+ " to " +:+ py_str user +:+ "@" +:+ host +:+ " has been added"
  ∧ Contains "has been added" (comment (present_ false (mkWorld s0 tr)).1).
Proof.
  intros Hex Hrev Hadd Hok.
  pose proof (present_run_conflict PyFalse added s0 s1 s2 s3 tr Hex Hrev Hadd) as E.
  rewrite E, Hok. cbn [fst is_False negb]. repeat split.
  unfold ret_grant_added; cbn [comment]. find_substring.
Qed.

(** C5: [present] twice with the same arguments.  The backend starts
    without the grant (the check answers [False]), the add succeeds, and
    afterwards the check answers [True].  Then the first, real run calls
    the check and the add and reports a change ([changes] maps the name to
    "Present"), and the second run, in either mode, is a no-op: it makes no
    mutation and returns empty [changes] with [result] [True]. *)
Theorem present_twice_converges (test2 : bool) (added : pyval)
    (s0 s1 s2 s3 : S) (tr : list call) :
  mysql_grant_exists salt privs database user host grant_option escape s0
    = (PyFalse, s1) →
  mysql_grant_add salt privs database user host grant_option escape s1
    = (added, s2) →
  truthy added = true →
  mysql_grant_exists salt privs database user host grant_option escape s2
    = (PyTrue, s3) →
  let first := present_ false (mkWorld s0 tr) in
  let second := present_ test2 first.2 in
  calls_made (present_ false) (mkWorld s0 tr) = [exists_call; add_call]
  ∧ changes first.1 = {[ name := "Present" ]}
  ∧ changes first.1 ≠ ∅
  ∧ changes second.1 = ∅
  ∧ result second.1 = Some true
  ∧ second.1 = already_present
  ∧ calls_made (present_ test2) first.2 = [exists_call]
  ∧ mutations (calls_made (present_ test2) first.2) = [].
Proof.
  intros Hex Hadd Hok Hex2 first second.
  pose proof (present_run_add added s0 s1 s2 tr Hex Hadd) as E1.
  rewrite Hok in E1.
  assert (calls_made (present_ false) (mkWorld s0 tr) = [exists_call; add_call])
    as Ec1 by (apply calls_made_spec; by rewrite E1).
  fold first in E1.
  pose proof (present_run_exists test2 s2 s3 (tr ++ [exists_call; add_call]) Hex2)
    as E2.
  assert (first.2 = {| backend := s2; trace := tr ++ [exists_call; add_call] |})
    as Ew by (by rewrite E1).
  rewrite <- Ew in E2. fold second in E2.
  assert (calls_made (present_ test2) first.2 = [exists_call]) as Ec.
  { apply calls_made_spec. fold second. by rewrite E2, Ew. }
  rewrite Ec1, Ec, E1, E2. cbn [fst]. repeat split.
  unfold ret_grant_added; cbn [changes]. apply insert_non_empty.
Qed.

(** *** The three paths through [absent] *)

Lemma absent_run_skip (test : bool) (x : pyval) (s0 s1 : S) (tr : list call) :
  mysql_grant_exists salt privs database user host grant_option escape s0
    = (x, s1) →
  truthy x = false →
  absent_ test (mkWorld s0 tr)
  = (not_present, {| backend := s1; trace := tr ++ [exists_call] |}).
Proof. intros Hex Hx. unfold absent. answer_with Hex. by rewrite Hx. Qed.

Lemma absent_run_dry (x : pyval) (s0 s1 : S) (tr : list call) :
  mysql_grant_exists salt privs database user host grant_option escape s0
    = (x, s1) →
  truthy x = true →
  absent_ true (mkWorld s0 tr)
  = (to_be_revoked, {| backend := s1; trace := tr ++ [exists_call] |}).
Proof. intros Hex Hx. unfold absent. answer_with Hex. by rewrite Hx. Qed.

Lemma absent_run_revoke (x revoked : pyval) (s0 s1 s2 : S) (tr : list call) :
  mysql_grant_exists salt privs database user host grant_option escape s0
    = (x, s1) →
  truthy x = true →
  mysql_grant_revoke salt privs database user host grant_option s1
    = (revoked, s2) →
  absent_ false (mkWorld s0 tr)
  = (if truthy revoked then grant_revoked else not_present,
     {| backend := s2; trace := tr ++ [exists_call; revoke_call] |}).
Proof.
  intros Hex Hx Hrev. unfold absent. answer_with Hex. rewrite Hx.
  answer_with Hrev. rewrite <- app_assoc.
  unfold ret_grant_revoked. rewrite <- insert_empty.
  by destruct (truthy revoked).
Qed.

(** *** The claims about [absent] *)

(** C3: not in dry-run mode, when the existence check answers [True] and
    the revoke that follows fails, [absent] returns the fallback record:
    the comment says the grant "is not present, so it cannot be revoked",
    [result] is still [True] and [changes] is empty. *)
Theorem absent_failed_revoke_fallback (revoked : pyval) (s0 s1 s2 : S)
    (tr : list call) :
  mysql_grant_exists salt privs database user host grant_option escape s0
    = (PyTrue, s1) →
  mysql_grant_revoke salt privs database user host grant_option s1
    = (revoked, s2) →
  truthy revoked = false →
  calls_made (absent_ false) (mkWorld s0 tr) = [exists_call; revoke_call]
  ∧ (absent_ false (mkWorld s0 tr)).1 = not_present
  ∧ result (absent_ false (mkWorld s0 tr)).1 = Some true
  ∧ changes (absent_ false (mkWorld s0 tr)).1 = ∅
  ∧ Contains "is not present, so it cannot be revoked"
      (comment (absent_ false (mkWorld s0 tr)).1).
Proof.
  intros Hex Hrev Hfail.
  pose proof (absent_run_revoke PyTrue revoked s0 s1 s2 tr Hex eq_refl Hrev) as E.
  split; [apply calls_made_spec; by rewrite E|].
  rewrite E, Hfail. cbn [fst]. repeat split.
  unfold ret_not_present; cbn [comment]. find_substring.
Qed.

(** C9: not in dry-run mode, when the existence check answers [True] and
    the revoke succeeds, the comment [absent] returns is the template
    "Grant {0} on {1} for {2}@{3} has been revoked" itself, whatever the
    privileges, database, user and host are; [changes] maps the name to
    "Absent". *)
Theorem absent_revoked_comment_unformatted (revoked : pyval) (s0 s1 s2 : S)
    (tr : list call) :
  mysql_grant_exists salt privs database user host grant_option escape s0
    = (PyTrue, s1) →
  mysql_grant_revoke salt privs database user host grant_option s1
    = (revoked, s2) →
  truthy revoked = true →
  comment (absent_ false (mkWorld s0 tr)).1
    = "Grant {0} on {1} for {2}@{3} has been revoked"
  ∧ changes (absent_ false (mkWorld s0 tr)).1 = {[ name := "Absent" ]}
  ∧ result (absent_ false (mkWorld s0 tr)).1 = Some true.
Proof.
  intros Hex Hrev Hok.
  pose proof (absent_run_revoke PyTrue revoked s0 s1 s2 tr Hex eq_refl Hrev) as E.
  by rewrite E, Hok.
Qed.

(** C2, amended: when the existence check answers [True], [absent] in
    dry-run mode returns [result] [None] with the comment "MySQL grant
    <name> is set to be revoked" and makes no mutation, and otherwise it
    calls the revoke with the privileges of the spec.  When the check
    answers [None], [absent] does what it does for [False]: in either mode
    the check is the only call, and the fallback record (grant "is not
    present, so it cannot be revoked", [result] [True]) is returned. *)
Theorem absent_exists_revokes (x : pyval) (s0 s1 : S) (tr : list call) :
  mysql_grant_exists salt privs database user host grant_option escape s0
    = (x, s1) →
  (x = PyTrue →
     (absent_ true (mkWorld s0 tr)).1 = to_be_revoked
     ∧ result (absent_ true (mkWorld s0 tr)).1 = None
     ∧ Contains "is set to be revoked" (comment (absent_ true (mkWorld s0 tr)).1)
     ∧ mutations (calls_made (absent_ true) (mkWorld s0 tr)) = []
     ∧ calls_made (absent_ false) (mkWorld s0 tr) = [exists_call; revoke_call])
  ∧ (x = PyNone ∨ x = PyFalse →
     ∀ test : bool,
       calls_made (absent_ test) (mkWorld s0 tr) = [exists_call]
       ∧ (absent_ test (mkWorld s0 tr)).1 = not_present
       ∧ result (absent_ test (mkWorld s0 tr)).1 = Some true).
Proof.
  intros Hex. split.
  - intros ->.
    pose proof (absent_run_dry PyTrue s0 s1 tr Hex eq_refl) as Ed.
    destruct (mysql_grant_revoke salt privs database user host grant_option s1)
      as [revoked s2] eqn:Hrev.
    pose proof (absent_run_revoke PyTrue revoked s0 s1 s2 tr Hex eq_refl Hrev) as Er.
    assert (calls_made (absent_ true) (mkWorld s0 tr) = [exists_call]) as Ec
      by (apply calls_made_spec; by rewrite Ed).
    rewrite Ec, Ed. cbn [fst]. repeat split.
    + unfold ret_to_be_revoked; cbn [comment]. find_substring.
    + apply calls_made_spec. by rewrite Er.
  - intros Hx test.
    assert (truthy x = false) as Hf by (by destruct Hx as [-> | ->]).
    pose proof (absent_run_skip test x s0 s1 tr Hex Hf) as E.
    split; [apply calls_made_spec; by rewrite E|].
    by rewrite E.
Qed.

(** *** Both state functions *)

(** C4, amended: in dry-run mode, whatever the existence check answers,
    neither [present] nor [absent] calls anything but the check, so there is
    no add and no revoke.  [present] returns [result] [None] with the
    comment "MySQL grant <name> is set to be created" unless the check
    answered [True], where it returns the "already present" record with
    [result] [True]; [absent] returns [result] [None] with the comment
    "MySQL grant <name> is set to be revoked" when the check answered
    [True], and otherwise the "not present" record with [result] [True]. *)
Theorem dry_run_never_mutates (x : pyval) (s0 s1 : S) (tr : list call) :
  mysql_grant_exists salt privs database user host grant_option escape s0
    = (x, s1) →
  (calls_made (present_ true) (mkWorld s0 tr) = [exists_call]
   ∧ mutations (calls_made (present_ true) (mkWorld s0 tr)) = []
   ∧ (present_ true (mkWorld s0 tr)).1
     = if is_True x then already_present else to_be_created)
  ∧ (calls_made (absent_ true) (mkWorld s0 tr) = [exists_call]
     ∧ mutations (calls_made (absent_ true) (mkWorld s0 tr)) = []
     ∧ (absent_ true (mkWorld s0 tr)).1
       = if truthy x then to_be_revoked else not_present).
Proof.
  intros Hex.
  assert (present_ true (mkWorld s0 tr)
          = (if is_True x then already_present else to_be_created,
             {| backend := s1; trace := tr ++ [exists_call] |})) as Ep.
  { destruct x; cbn [is_True].
    - by apply (present_run_dry PyNone).
    - by apply present_run_exists.
    - by apply (present_run_dry PyFalse). }
  assert (absent_ true (mkWorld s0 tr)
          = (if truthy x then to_be_revoked else not_present,
             {| backend := s1; trace := tr ++ [exists_call] |})) as Ea.
  { destruct x; cbn [truthy].
    - by apply (absent_run_skip true PyNone).
    - by apply (absent_run_dry PyTrue).
    - by apply (absent_run_skip true PyFalse). }
  assert (calls_made (present_ true) (mkWorld s0 tr) = [exists_call]) as Ecp
    by (apply calls_made_spec; by rewrite Ep).
  assert (calls_made (absent_ true) (mkWorld s0 tr) = [exists_call]) as Eca
    by (apply calls_made_spec; by rewrite Ea).
  by rewrite Ecp, Eca, Ep, Ea.
Qed.

End Reconcile.

(** The fallback written the way the interface is documented: the
    privileges when they are given, the deprecated [grant] otherwise. *)
Lemma effective_privileges_spec (privileges grant : option string) :
  effective_privileges privileges grant
  = match privileges with Some p => Some p | None => grant end.
Proof. by destruct privileges, grant. Qed.

(** * The states of the module's documentation, run on scripts *)

(** The grant is there: nothing to do. *)
Lemma present_exists_noop_witness :
  answer [PyTrue] = (PyTrue, [])
  ∧ calls_made (frank_present false) (mkWorld [PyTrue] []) = [frank_exists]
  ∧ mutations (calls_made (frank_present false) (mkWorld [PyTrue] [])) = []
  ∧ changes (frank_present false (mkWorld [PyTrue] [])).1 = ∅
  ∧ result (frank_present false (mkWorld [PyTrue] [])).1 = Some true
  ∧ Contains "already present"
      (comment (frank_present false (mkWorld [PyTrue] [])).1).
Proof.
  split; [reflexivity|].
  exact (present_exists_noop scripted "frank_exampledb" None
           (Some "select,insert,update") (Some "exampledb.*") (Some "frank")
           "localhost" false true false [PyTrue] [] [] eq_refl).
Defined.

(** A conflicting grant, the revoke fails, the add succeeds. *)
Lemma present_conflict_calls_witness :
  answer [PyNone; PyFalse; PyTrue] = (PyNone, [PyFalse; PyTrue])
  ∧ calls_made (frank_present false) (mkWorld [PyNone; PyFalse; PyTrue] [])
    = [frank_exists; frank_revoke_all; frank_add]
  ∧ mutations
      (calls_made (frank_present false) (mkWorld [PyNone; PyFalse; PyTrue] []))
    = [frank_revoke_all; frank_add].
Proof.
  split; [reflexivity|].
  exact (present_conflict_calls scripted "frank_exampledb" None
           (Some "select,insert,update") (Some "exampledb.*") (Some "frank")
           "localhost" false true [PyNone; PyFalse; PyTrue] [PyFalse; PyTrue] []
           eq_refl).
Defined.

(** No grant yet, the add succeeds. *)
Lemma present_missing_grant_added_witness :
  answer [PyFalse; PyTrue] = (PyFalse, [PyTrue])
  ∧ answer [PyTrue] = (PyTrue, [])
  ∧ changes (frank_present false (mkWorld [PyFalse; PyTrue] [])).1
    = {[ "frank_exampledb" := "Present" ]}
  ∧ result (frank_present false (mkWorld [PyFalse; PyTrue] [])).1 = Some true
  ∧ Contains "added"
      (comment (frank_present false (mkWorld [PyFalse; PyTrue] [])).1).
Proof.
  split; [reflexivity|]. split; [reflexivity|].
  exact (proj1 (proj2
           (present_missing_grant_added scripted "frank_exampledb" None
              (Some "select,insert,update") (Some "exampledb.*") (Some "frank")
              "localhost" false true PyTrue [PyFalse; PyTrue] [PyTrue] [] []
              eq_refl eq_refl)) eq_refl).
Defined.

(** A conflicting grant, the revoke fails, the add succeeds: a change is
    recorded next to [result] [False]. *)
Lemma present_conflict_failed_revoke_witness :
  answer [PyNone; PyFalse; PyTrue] = (PyNone, [PyFalse; PyTrue])
  ∧ answer [PyFalse; PyTrue] = (PyFalse, [PyTrue])
  ∧ answer [PyTrue] = (PyTrue, [])
  ∧ truthy PyTrue = true
  ∧ result (frank_present false (mkWorld [PyNone; PyFalse; PyTrue] [])).1
    = Some false
  ∧ changes (frank_present false (mkWorld [PyNone; PyFalse; PyTrue] [])).1
    = {[ "frank_exampledb" := "Present" ]}
  ∧ comment (frank_present false (mkWorld [PyNone; PyFalse; PyTrue] [])).1
    = "Grant select,insert,update on exampledb.* to frank@localhost has been added"
  ∧ Contains "has been added"
      (comment (frank_present false (mkWorld [PyNone; PyFalse; PyTrue] [])).1).
Proof.
  do 4 (split; [reflexivity|]).
  exact (present_conflict_failed_revoke scripted "frank_exampledb" None
           (Some "select,insert,update") (Some "exampledb.*") (Some "frank")
           "localhost" false true PyTrue
           [PyNone; PyFalse; PyTrue] [PyFalse; PyTrue] [PyTrue] [] []
           eq_refl eq_refl eq_refl eq_refl).
Defined.

(** No grant yet, the add succeeds, then the grant is there. *)
Lemma present_twice_converges_witness :
  answer [PyFalse; PyTrue; PyTrue] = (PyFalse, [PyTrue; PyTrue])
  ∧ answer [PyTrue; PyTrue] = (PyTrue, [PyTrue])
  ∧ truthy PyTrue = true
  ∧ answer [PyTrue] = (PyTrue, [])
  ∧ calls_made (frank_present false) (mkWorld [PyFalse; PyTrue; PyTrue] [])
    = [frank_exists; frank_add]
  ∧ changes (frank_present false (mkWorld [PyFalse; PyTrue; PyTrue] [])).1
    = {[ "frank_exampledb" := "Present" ]}
  ∧ changes (frank_present false (mkWorld [PyFalse; PyTrue; PyTrue] [])).1 ≠ ∅
  ∧ changes
      (frank_present false
         (frank_present false (mkWorld [PyFalse; PyTrue; PyTrue] [])).2).1 = ∅
  ∧ result
      (frank_present false
         (frank_present false (mkWorld [PyFalse; PyTrue; PyTrue] [])).2).1
    = Some true.
Proof.
  do 4 (split; [reflexivity|]).
  pose proof
    (present_twice_converges scripted "frank_exampledb" None
       (Some "select,insert,update") (Some "exampledb.*") (Some "frank")
       "localhost" false true false PyTrue
       [PyFalse; PyTrue; PyTrue] [PyTrue; PyTrue] [PyTrue] [] []
       eq_refl eq_refl eq_refl eq_refl) as (H0 & H1 & H2 & H3 & H4 & _).
  exact (conj H0 (conj H1 (conj H2 (conj H3 H4)))).
Defined.

(** The grant is there, the revoke fails. *)
Lemma absent_failed_revoke_fallback_witness :
  answer [PyTrue; PyFalse] = (PyTrue, [PyFalse])
  ∧ answer [PyFalse] = (PyFalse, [])
  ∧ truthy PyFalse = false
  ∧ result (frank_absent false (mkWorld [PyTrue; PyFalse] [])).1 = Some true
  ∧ changes (frank_absent false (mkWorld [PyTrue; PyFalse] [])).1 = ∅
  ∧ Contains "is not present, so it cannot be revoked"
      (comment (frank_absent false (mkWorld [PyTrue; PyFalse] [])).1).
Proof.
  do 3 (split; [reflexivity|]).
  exact (proj2 (proj2
           (absent_failed_revoke_fallback scripted "frank_exampledb" None
              (Some "select,insert,update") (Some "exampledb.*") (Some "frank")
              "localhost" false true PyFalse [PyTrue; PyFalse] [PyFalse] [] []
              eq_refl eq_refl eq_refl))).
Defined.

(** The grant is there, the revoke succeeds. *)
Lemma absent_revoked_comment_unformatted_witness :
  answer [PyTrue; PyTrue] = (PyTrue, [PyTrue])
  ∧ answer [PyTrue] = (PyTrue, [])
  ∧ truthy PyTrue = true
  ∧ comment (frank_absent false (mkWorld [PyTrue; PyTrue] [])).1
    = "Grant {0} on {1} for {2}@{3} has been revoked"
  ∧ changes (frank_absent false (mkWorld [PyTrue; PyTrue] [])).1
    = {[ "frank_exampledb" := "Absent" ]}
  ∧ result (frank_absent false (mkWorld [PyTrue; PyTrue] [])).1 = Some true.
Proof.
  do 3 (split; [reflexivity|]).
  exact (absent_revoked_comment_unformatted scripted "frank_exampledb" None
           (Some "select,insert,update") (Some "exampledb.*") (Some "frank")
           "localhost" false true PyTrue [PyTrue; PyTrue] [PyTrue] [] []
           eq_refl eq_refl eq_refl).
Defined.

(** The grant is there: dry run, and the calls of the real run. *)
Lemma absent_exists_revokes_witness :
  answer [PyTrue; PyTrue] = (PyTrue, [PyTrue])
  ∧ result (frank_absent true (mkWorld [PyTrue; PyTrue] [])).1 = None
  ∧ Contains "is set to be revoked"
      (comment (frank_absent true (mkWorld [PyTrue; PyTrue] [])).1)
  ∧ mutations (calls_made (frank_absent true) (mkWorld [PyTrue; PyTrue] [])) = []
  ∧ calls_made (frank_absent false) (mkWorld [PyTrue; PyTrue] [])
    = [frank_exists; frank_revoke].
Proof.
  split; [reflexivity|].
  exact (proj2 (proj1
           (absent_exists_revokes scripted "frank_exampledb" None
              (Some "select,insert,update") (Some "exampledb.*") (Some "frank")
              "localhost" false true PyTrue [PyTrue; PyTrue] [PyTrue] []
              eq_refl) eq_refl)).
Defined.

(** C2 as stated fails when the existence check answers [None]: the dry
    run does not return [result] [None] but the fallback record, and the
    real run makes no revoke call, although the backend would have accepted
    one. *)
Lemma absent_indeterminate_counterexample :
  answer [PyNone; PyTrue] = (PyNone, [PyTrue])
  ∧ result (frank_absent true (mkWorld [PyNone; PyTrue] [])).1 ≠ None
  ∧ comment (frank_absent true (mkWorld [PyNone; PyTrue] [])).1
    = "Grant select,insert,update on exampledb.* to frank@localhost"
      +:+ " is not present, so it cannot be revoked"
  ∧ calls_made (frank_absent false) (mkWorld [PyNone; PyTrue] []) = [frank_exists]
  ∧ frank_revoke ∉ calls_made (frank_absent false) (mkWorld [PyNone; PyTrue] []).
Proof.
  split; [reflexivity|]. split; [by vm_compute|]. split; [reflexivity|].
  assert (calls_made (frank_absent false) (mkWorld [PyNone; PyTrue] [])
          = [frank_exists]) as E by reflexivity.
  split; [exact E|]. rewrite E. by intros ?%list_elem_of_singleton.
Qed.

(** No grant: the dry run of both state functions only asks. *)
Lemma dry_run_never_mutates_witness :
  answer [PyFalse] = (PyFalse, [])
  ∧ mutations (calls_made (frank_present true) (mkWorld [PyFalse] [])) = []
  ∧ result (frank_present true (mkWorld [PyFalse] [])).1 = None
  ∧ mutations (calls_made (frank_absent true) (mkWorld [PyFalse] [])) = []
  ∧ result (frank_absent true (mkWorld [PyFalse] [])).1 = Some true.
Proof.
  split; [reflexivity|].
  pose proof
    (dry_run_never_mutates scripted "frank_exampledb" None
       (Some "select,insert,update") (Some "exampledb.*") (Some "frank")
       "localhost" false true PyFalse [PyFalse] [] [] eq_refl)
    as ((_ & Hp & Ep) & (_ & Ha & Ea)).
  split; [exact Hp|]. split; [exact (f_equal result Ep)|].
  split; [exact Ha|]. exact (f_equal result Ea).
Defined.

(** C4 as stated fails when the existence check answers [True]: the dry
    run of [present] returns [result] [True] and the "already present"
    comment, no pending action and no [None]. *)
Lemma dry_run_present_counterexample :
  answer [PyTrue] = (PyTrue, [])
  ∧ result (frank_present true (mkWorld [PyTrue] [])).1 = Some true
  ∧ result (frank_present true (mkWorld [PyTrue] [])).1 ≠ None
  ∧ comment (frank_present true (mkWorld [PyTrue] [])).1
    = "Grant select,insert,update on exampledb.* to frank@localhost is already present".
Proof. repeat split. by vm_compute. Qed.

(** * Further properties of the module *)

(** ** [__virtual__] *)

(** X1: the module loads, under the name "mysql_grants", exactly when
    "mysql.grant_exists" is a key of [__salt__].  No other key is looked at:
    adding or removing one, "mysql.grant_add" and "mysql.grant_revoke"
    included, does not change the answer. *)
Theorem virtual_only_reads_grant_exists {V : Type} (d : gmap string V) :
  (__virtual__ d = VirtualName "mysql_grants"
   ↔ is_Some (d !! "mysql.grant_exists"))
  ∧ (__virtual__ d = VirtualFalse ↔ d !! "mysql.grant_exists" = None)
  ∧ (∀ (k : string) (v : V),
       k ≠ "mysql.grant_exists" →
       __virtual__ (<[k := v]> d) = __virtual__ d
       ∧ __virtual__ (delete k d) = __virtual__ d).
Proof.
  unfold __virtual__. repeat split.
  - case_decide as Hin; [by apply elem_of_dom in Hin | done].
  - intros Hin%elem_of_dom. by rewrite decide_True.
  - case_decide as Hin; [done | by apply not_elem_of_dom in Hin].
  - intros Hin%not_elem_of_dom. by rewrite decide_False.
  - apply decide_ext. rewrite dom_insert, elem_of_union, elem_of_singleton.
    naive_solver.
  - apply decide_ext. rewrite dom_delete, elem_of_difference, elem_of_singleton.
    naive_solver.
Qed.

(** ** Every run of [present] and [absent] *)

Section Runs.
Context {S : Type} (salt : Salt S).
Variables (name : string) (privileges grant database user : option string).
Variables (host : string) (grant_option escape : bool).

Local Notation privs := (effective_privileges privileges grant).
Local Notation exists_call :=
  (GrantExists privs database user host grant_option escape).
Local Notation add_call :=
  (GrantAdd privs database user host grant_option escape).
Local Notation revoke_all_call :=
  (GrantRevoke (Some "ALL PRIVILEGES") database user host grant_option).
Local Notation revoke_call :=
  (GrantRevoke privs database user host grant_option).
Local Notation present_ test :=
  (present salt test name privileges grant database user host grant_option escape).
Local Notation absent_ test :=
  (absent salt test name privileges grant database user host grant_option escape).
Local Notation already_present :=
  (ret_already_present name privs database user host).
Local Notation to_be_created := (ret_to_be_created name).
Local Notation grant_added res :=
  (ret_grant_added name privs database user host res).
Local Notation grant_failed := (ret_grant_failed name privs database user host).
Local Notation not_present := (ret_not_present name privs database user host).
Local Notation to_be_revoked := (ret_to_be_revoked name).
Local Notation grant_revoked := (ret_grant_revoked name).

(** Whatever the backend answers, a run of [present] is one of four. *)
Lemma present_paths (test : bool) (s0 : S) (tr : list call) :
  (∃ s1,
      present_ test (mkWorld s0 tr)
      = (already_present, mkWorld s1 (tr ++ [exists_call])))
  ∨ (∃ s1,
      test = true
      ∧ present_ test (mkWorld s0 tr)
        = (to_be_created, mkWorld s1 (tr ++ [exists_call])))
  ∨ (∃ added s2,
      test = false
      ∧ present_ test (mkWorld s0 tr)
        = (if truthy added then grant_added true else grant_failed,
           mkWorld s2 (tr ++ [exists_call; add_call])))
  ∨ (∃ revoked added s3,
      test = false
      ∧ present_ test (mkWorld s0 tr)
        = (if truthy added then grant_added (negb (is_False revoked))
           else grant_failed,
           mkWorld s3 (tr ++ [exists_call; revoke_all_call; add_call]))).
Proof.
  destruct (mysql_grant_exists salt privs database user host grant_option escape s0)
    as [x s1] eqn:Hex.
  destruct x.
  - destruct test.
    + right; left. exists s1. split; [done|].
      by apply (present_run_dry salt _ _ _ _ _ _ _ _ PyNone).
    + destruct (mysql_grant_revoke salt (Some "ALL PRIVILEGES") database user host
                  grant_option s1) as [revoked s2] eqn:Hrev.
      destruct (mysql_grant_add salt privs database user host grant_option
                  escape s2) as [added s3] eqn:Hadd.
      do 3 right. exists revoked, added, s3. split; [done|].
      by apply (present_run_conflict salt _ _ _ _ _ _ _ _ revoked added s0 s1 s2).
  - left. exists s1. by apply present_run_exists.
  - destruct test.
    + right; left. exists s1. split; [done|].
      by apply (present_run_dry salt _ _ _ _ _ _ _ _ PyFalse).
    + destruct (mysql_grant_add salt privs database user host grant_option
                  escape s1) as [added s2] eqn:Hadd.
      right; right; left. exists added, s2. split; [done|].
      by apply (present_run_add salt _ _ _ _ _ _ _ _ added s0 s1).
Qed.

(** Whatever the backend answers, a run of [absent] is one of three. *)
Lemma absent_paths (test : bool) (s0 : S) (tr : list call) :
  (∃ s1,
      absent_ test (mkWorld s0 tr)
      = (not_present, mkWorld s1 (tr ++ [exists_call])))
  ∨ (∃ s1,
      test = true
      ∧ absent_ test (mkWorld s0 tr)
        = (to_be_revoked, mkWorld s1 (tr ++ [exists_call])))
  ∨ (∃ revoked s2,
      test = false
      ∧ absent_ test (mkWorld s0 tr)
        = (if truthy revoked then grant_revoked else not_present,
           mkWorld s2 (tr ++ [exists_call; revoke_call]))).
Proof.
  destruct (mysql_grant_exists salt privs database user host grant_option escape s0)
    as [x s1] eqn:Hex.
  destruct (truthy x) eqn:Hx.
  - destruct test.
    + right; left. exists s1. split; [done|].
      by apply (absent_run_dry salt _ _ _ _ _ _ _ _ x).
    + destruct (mysql_grant_revoke salt privs database user host grant_option s1)
        as [revoked s2] eqn:Hrev.
      right; right. exists revoked, s2. split; [done|].
      by apply (absent_run_revoke salt _ _ _ _ _ _ _ _ x revoked s0 s1).
  - left. exists s1. by apply (absent_run_skip salt _ _ _ _ _ _ _ _ test x).
Qed.

(** X2: whatever the mode and the backend, [present] starts with the
    existence check and then makes no call, or one add, or one revoke of
    "ALL PRIVILEGES" followed by one add.  So it never retries, never
    revokes anything but "ALL PRIVILEGES", and never revokes without adding
    afterwards. *)
Theorem present_call_shapes (test : bool) (s0 : S) (tr : list call) :
  calls_made (present_ test) (mkWorld s0 tr) = [exists_call]
  ∨ calls_made (present_ test) (mkWorld s0 tr) = [exists_call; add_call]
  ∨ calls_made (present_ test) (mkWorld s0 tr)
    = [exists_call; revoke_all_call; add_call].
Proof.
  destruct (present_paths test s0 tr)
    as [(s1 & E) | [(s1 & _ & E) | [(a & s2 & _ & E) | (r & a & s3 & _ & E)]]].
  - left. apply calls_made_spec. by rewrite E.
  - left. apply calls_made_spec. by rewrite E.
  - right; left. apply calls_made_spec. by rewrite E.
  - right; right. apply calls_made_spec. by rewrite E.
Qed.

(** X3: whatever the mode and the backend, [absent] starts with the
    existence check and then makes no call or one revoke, with the
    privileges of the state.  It never calls the add. *)
Theorem absent_call_shapes (test : bool) (s0 : S) (tr : list call) :
  (calls_made (absent_ test) (mkWorld s0 tr) = [exists_call]
   ∨ calls_made (absent_ test) (mkWorld s0 tr) = [exists_call; revoke_call])
  ∧ ∀ p d u h g e,
      GrantAdd p d u h g e ∉ calls_made (absent_ test) (mkWorld s0 tr).
Proof.
  assert (calls_made (absent_ test) (mkWorld s0 tr) = [exists_call]
          ∨ calls_made (absent_ test) (mkWorld s0 tr)
            = [exists_call; revoke_call]) as Hshape.
  { destruct (absent_paths test s0 tr)
      as [(s1 & E) | [(s1 & _ & E) | (r & s2 & _ & E)]].
    - left. apply calls_made_spec. by rewrite E.
    - left. apply calls_made_spec. by rewrite E.
    - right. apply calls_made_spec. by rewrite E. }
  split; [exact Hshape|].
  intros p d u h g e Hin.
  destruct Hshape as [E | E]; rewrite E in Hin;
    repeat (apply elem_of_cons in Hin as [Hin | Hin]; [discriminate|]);
    by apply elem_of_nil in Hin.
Qed.

(** X4: [absent] never reports a failure.  Its [result] is [True], or
    [None] in a dry run; it is never [False], not even when the revoke
    fails. *)
Theorem absent_never_fails (test : bool) (s0 : S) (tr : list call) :
  result (absent_ test (mkWorld s0 tr)).1 ≠ Some false
  ∧ (result (absent_ test (mkWorld s0 tr)).1 = Some true
     ∨ (test = true ∧ result (absent_ test (mkWorld s0 tr)).1 = None)).
Proof.
  destruct (absent_paths test s0 tr)
    as [(s1 & E) | [(s1 & Ht & E) | (r & s2 & _ & E)]]; rewrite E; cbn [fst].
  - split; [done | by left].
  - split; [done | by right].
  - destruct (truthy r); (split; [done | by left]).
Qed.

(** X5: what [present] returns is tied to what it did.  [changes] is empty
    or maps the name to "Present", and it is only set in a real run that
    called the add; a [False] [result] is only returned from a real run
    that called the add; a [None] [result] is only returned from a dry run,
    which made the existence check and nothing else. *)
Theorem present_outcome_needs_add (test : bool) (s0 : S) (tr : list call) :
  (changes (present_ test (mkWorld s0 tr)).1 = ∅
   ∨ changes (present_ test (mkWorld s0 tr)).1 = {[ name := "Present" ]})
  ∧ (changes (present_ test (mkWorld s0 tr)).1 ≠ ∅ →
     test = false ∧ add_call ∈ calls_made (present_ test) (mkWorld s0 tr))
  ∧ (result (present_ test (mkWorld s0 tr)).1 = Some false →
     test = false ∧ add_call ∈ calls_made (present_ test) (mkWorld s0 tr))
  ∧ (result (present_ test (mkWorld s0 tr)).1 = None →
     test = true ∧ calls_made (present_ test) (mkWorld s0 tr) = [exists_call]).
Proof.
  destruct (present_paths test s0 tr)
    as [(s1 & E) | [(s1 & Ht & E) | [(a & s2 & Ht & E) | (r & a & s3 & Ht & E)]]].
  - rewrite (calls_made_spec _ _ [exists_call]) by (by rewrite E).
    rewrite E; cbn [fst]. repeat split; try done; by left.
  - rewrite (calls_made_spec _ _ [exists_call]) by (by rewrite E).
    rewrite E; cbn [fst]. repeat split; try done; by left.
  - rewrite (calls_made_spec _ _ [exists_call; add_call]) by (by rewrite E).
    rewrite E; cbn [fst].
    assert (add_call ∈ [exists_call; add_call]) as Hin
      by (apply list_elem_of_further, list_elem_of_here).
    destruct (truthy a); cbn; repeat split; try done; first [by left | by right].
  - rewrite (calls_made_spec _ _ [exists_call; revoke_all_call; add_call])
      by (by rewrite E).
    rewrite E; cbn [fst].
    assert (add_call ∈ [exists_call; revoke_all_call; add_call]) as Hin
      by (do 2 apply list_elem_of_further; apply list_elem_of_here).
    destruct (truthy a); cbn; repeat split; try done; first [by left | by right].
Qed.

(** X6: [changes] of [absent] is empty or maps the name to "Absent", and
    it is only set in a real run that called the revoke; [result] is then
    [True]. *)
Theorem absent_change_needs_revoke (test : bool) (s0 : S) (tr : list call) :
  (changes (absent_ test (mkWorld s0 tr)).1 = ∅
   ∨ changes (absent_ test (mkWorld s0 tr)).1 = {[ name := "Absent" ]})
  ∧ (changes (absent_ test (mkWorld s0 tr)).1 ≠ ∅ →
     test = false
     ∧ revoke_call ∈ calls_made (absent_ test) (mkWorld s0 tr)
     ∧ result (absent_ test (mkWorld s0 tr)).1 = Some true).
Proof.
  destruct (absent_paths test s0 tr)
    as [(s1 & E) | [(s1 & Ht & E) | (r & s2 & Ht & E)]].
  - rewrite E; cbn [fst]. split; [by left | done].
  - rewrite E; cbn [fst]. split; [by left | done].
  - rewrite (calls_made_spec _ _ [exists_call; revoke_call]) by (by rewrite E).
    rewrite E; cbn [fst].
    assert (revoke_call ∈ [exists_call; revoke_call]) as Hin
      by (apply list_elem_of_further, list_elem_of_here).
    destruct (truthy r); cbn; split; try done; first [by left | by right].
Qed.

(** X7: the comment [present] writes when the revoke of a conflicting
    grant fails (lines 116 to 118) is never the one it returns: the add
    that follows overwrites it on both of its branches.  Whatever the mode
    and the backend, the returned comment does not even start with "Failed
    to remove". *)
Theorem present_revoke_failure_comment_lost (test : bool) (s0 : S)
    (tr : list call) :
  String.prefix "Failed to remove" (comment (present_ test (mkWorld s0 tr)).1)
    = false
  ∧ comment (present_ test (mkWorld s0 tr)).1
    ≠ format ("Failed to remove previous grant before applying new"
              +:+ " grant: " +:+ dquote
              +:+ "GRANT {0} ON {1} TO {2}@{3}" +:+ dquote)
        [py_str privs; py_str database; py_str user; host].
Proof.
  assert (String.prefix "Failed to remove"
            (comment (present_ test (mkWorld s0 tr)).1) = false) as Hpre.
  { destruct (present_paths test s0 tr)
      as [(s1 & E) | [(s1 & _ & E) | [(a & s2 & _ & E) | (r & a & s3 & _ & E)]]];
      rewrite E; cbn [fst]; try destruct (truthy a); reflexivity. }
  split; [exact Hpre|].
  intros Heq. rewrite Heq in Hpre. discriminate Hpre.
Qed.

(** X8: the dry run announces a change exactly when the real run, started
    from the same backend state, would change something.  [present] in
    dry-run mode returns [result] [None] if and only if [present] in real
    mode calls the add; [absent] in dry-run mode returns [result] [None] if
    and only if [absent] in real mode calls the revoke. *)
Theorem dry_run_predicts_mutation (s0 : S) (tr : list call) :
  (result (present_ true (mkWorld s0 tr)).1 = None
   ↔ add_call ∈ calls_made (present_ false) (mkWorld s0 tr))
  ∧ (result (absent_ true (mkWorld s0 tr)).1 = None
     ↔ revoke_call ∈ calls_made (absent_ false) (mkWorld s0 tr)).
Proof.
  destruct (mysql_grant_exists salt privs database user host grant_option escape s0)
    as [x s1] eqn:Hex.
  split.
  - destruct x.
    + destruct (mysql_grant_revoke salt (Some "ALL PRIVILEGES") database user host
                  grant_option s1) as [revoked s2] eqn:Hrev.
      destruct (mysql_grant_add salt privs database user host grant_option
                  escape s2) as [added s3] eqn:Hadd.
      rewrite (present_run_dry salt _ _ _ _ _ _ _ _ PyNone s0 s1 tr Hex eq_refl).
      rewrite (calls_made_spec _ _ [exists_call; revoke_all_call; add_call])
        by (by rewrite (present_run_conflict salt _ _ _ _ _ _ _ _
                          revoked added s0 s1 s2 s3 tr Hex Hrev Hadd)).
      split; [intros _|done].
      do 2 apply list_elem_of_further; apply list_elem_of_here.
    + rewrite (present_run_exists salt _ _ _ _ _ _ _ _ true s0 s1 tr Hex).
      rewrite (calls_made_spec _ _ [exists_call])
        by (by rewrite (present_run_exists salt _ _ _ _ _ _ _ _ false s0 s1 tr Hex)).
      split; [done|]. by intros ?%list_elem_of_singleton.
    + destruct (mysql_grant_add salt privs database user host grant_option
                  escape s1) as [added s2] eqn:Hadd.
      rewrite (present_run_dry salt _ _ _ _ _ _ _ _ PyFalse s0 s1 tr Hex eq_refl).
      rewrite (calls_made_spec _ _ [exists_call; add_call])
        by (by rewrite (present_run_add salt _ _ _ _ _ _ _ _
                          added s0 s1 s2 tr Hex Hadd)).
      split; [intros _|done].
      apply list_elem_of_further, list_elem_of_here.
  - destruct (truthy x) eqn:Hx.
    + destruct (mysql_grant_revoke salt privs database user host grant_option s1)
        as [revoked s2] eqn:Hrev.
      rewrite (absent_run_dry salt _ _ _ _ _ _ _ _ x s0 s1 tr Hex Hx).
      rewrite (calls_made_spec _ _ [exists_call; revoke_call])
        by (by rewrite (absent_run_revoke salt _ _ _ _ _ _ _ _
                          x revoked s0 s1 s2 tr Hex Hx Hrev)).
      split; [intros _|done].
      apply list_elem_of_further, list_elem_of_here.
    + rewrite (absent_run_skip salt _ _ _ _ _ _ _ _ true x s0 s1 tr Hex Hx).
      rewrite (calls_made_spec _ _ [exists_call])
        by (by rewrite (absent_run_skip salt _ _ _ _ _ _ _ _ false x s0 s1 tr Hex Hx)).
      split; [done|]. by intros ?%list_elem_of_singleton.
Qed.

End Runs.

(** ** The deprecated [grant] argument *)

Section Fallback.
Context {S : Type} (salt : Salt S) (test : bool).
Variables (name : string) (database user : option string).
Variables (host : string) (grant_option escape : bool).

Local Notation present' privileges grant :=
  (present salt test name privileges grant database user host grant_option escape).
Local Notation absent' privileges grant :=
  (absent salt test name privileges grant database user host grant_option escape).
Local Notation exists_call p :=
  (GrantExists (Some p) database user host grant_option escape).
Local Notation add_call p :=
  (GrantAdd (Some p) database user host grant_option escape).
Local Notation revoke_call p :=
  (GrantRevoke (Some p) database user host grant_option).

(** C8: the deprecated [grant] stands in for [privileges] when the latter
    is not given: with [grant=g] alone, [present] and [absent] are the same
    computations (same record, same calls, same backend state) as with
    [privileges=g] alone, and [g] is the privilege string every call to the
    backend carries.  When both are given, [grant] is ignored: the runs are
    those with [privileges=p] alone, and the explicit [p] is what the
    backend is called with (the revoke of a conflicting grant apart, which
    is always of "ALL PRIVILEGES"). *)
Theorem grant_is_privileges_fallback (g : string) :
  (present' None (Some g) = present' (Some g) None
   ∧ absent' None (Some g) = absent' (Some g) None
   ∧ (∀ p : string,
        present' (Some p) (Some g) = present' (Some p) None
        ∧ absent' (Some p) (Some g) = absent' (Some p) None))
  ∧ (effective_privileges None (Some g) = Some g
     ∧ ∀ p : string, effective_privileges (Some p) (Some g) = Some p)
  ∧ (∀ (s0 : S) (tr : list call),
       (calls_made (present' None (Some g)) (mkWorld s0 tr) = [exists_call g]
        ∨ calls_made (present' None (Some g)) (mkWorld s0 tr)
          = [exists_call g; add_call g]
        ∨ calls_made (present' None (Some g)) (mkWorld s0 tr)
          = [exists_call g; revoke_call "ALL PRIVILEGES"; add_call g])
       ∧ (calls_made (absent' None (Some g)) (mkWorld s0 tr) = [exists_call g]
          ∨ calls_made (absent' None (Some g)) (mkWorld s0 tr)
            = [exists_call g; revoke_call g]))
  ∧ (∀ (p : string) (s0 : S) (tr : list call),
       (calls_made (present' (Some p) (Some g)) (mkWorld s0 tr) = [exists_call p]
        ∨ calls_made (present' (Some p) (Some g)) (mkWorld s0 tr)
          = [exists_call p; add_call p]
        ∨ calls_made (present' (Some p) (Some g)) (mkWorld s0 tr)
          = [exists_call p; revoke_call "ALL PRIVILEGES"; add_call p])
       ∧ (calls_made (absent' (Some p) (Some g)) (mkWorld s0 tr) = [exists_call p]
          ∨ calls_made (absent' (Some p) (Some g)) (mkWorld s0 tr)
            = [exists_call p; revoke_call p])).
Proof.
  assert (∀ (privileges grant : option string) (q : string) (s0 : S)
            (tr : list call),
            effective_privileges privileges grant = Some q →
            (calls_made (present' privileges grant) (mkWorld s0 tr)
             = [exists_call q]
             ∨ calls_made (present' privileges grant) (mkWorld s0 tr)
               = [exists_call q; add_call q]
             ∨ calls_made (present' privileges grant) (mkWorld s0 tr)
               = [exists_call q; revoke_call "ALL PRIVILEGES"; add_call q])
            ∧ (calls_made (absent' privileges grant) (mkWorld s0 tr)
               = [exists_call q]
               ∨ calls_made (absent' privileges grant) (mkWorld s0 tr)
                 = [exists_call q; revoke_call q])) as Hcalls.
  { intros privileges grant q s0 tr Hq. split.
    - destruct (present_paths salt name privileges grant database user host
                  grant_option escape test s0 tr)
        as [(s1 & E) | [(s1 & _ & E) | [(a & s2 & _ & E) | (r & a & s3 & _ & E)]]];
        rewrite Hq in E.
      + left. apply calls_made_spec. by rewrite E.
      + left. apply calls_made_spec. by rewrite E.
      + right; left. apply calls_made_spec. by rewrite E.
      + right; right. apply calls_made_spec. by rewrite E.
    - destruct (absent_paths salt name privileges grant database user host
                  grant_option escape test s0 tr)
        as [(s1 & E) | [(s1 & _ & E) | (r & s2 & _ & E)]]; rewrite Hq in E.
      + left. apply calls_made_spec. by rewrite E.
      + left. apply calls_made_spec. by rewrite E.
      + right. apply calls_made_spec. by rewrite E. }
  split; [by repeat split|].
  split; [by split|].
  split.
  - intros s0 tr. by apply Hcalls.
  - intros p s0 tr. by apply Hcalls.
Qed.

End Fallback.

(** X9: the record either function returns is always filled in: its
    [name] is the name passed, and its [comment] is never empty.  In
    particular the empty comment [absent] starts from (line 168) is
    overwritten on every path. *)
Theorem returned_record_filled {S : Type} (salt : Salt S) (test : bool)
    (n : string) (privileges grant database user : option string)
    (host : string) (grant_option escape : bool) (w : world S) :
  let r := (present salt test n privileges grant database user host
              grant_option escape w).1 in
  let r' := (absent salt test n privileges grant database user host
               grant_option escape w).1 in
  (name r = n ∧ comment r ≠ EmptyString)
  ∧ (name r' = n ∧ comment r' ≠ EmptyString).
Proof.
  destruct w as [s0 tr]. cbv zeta. split.
  - destruct (present_paths salt n privileges grant database user host
                grant_option escape test s0 tr)
      as [(s1 & E) | [(s1 & _ & E) | [(a & s2 & _ & E) | (r & a & s3 & _ & E)]]];
      rewrite E; cbn [fst]; try destruct (truthy a); by split.
  - destruct (absent_paths salt n privileges grant database user host
                grant_option escape test s0 tr)
      as [(s1 & E) | [(s1 & _ & E) | (r & s2 & _ & E)]];
      rewrite E; cbn [fst]; try destruct (truthy r); by split.
Qed.

(** ** Runs in sequence *)

Section Sequences.
Context {S : Type} (salt : Salt S).
Variables (name : string) (privileges grant database user : option string).
Variables (host : string) (grant_option escape : bool).

Local Notation privs := (effective_privileges privileges grant).
Local Notation exists_call :=
  (GrantExists privs database user host grant_option escape).
Local Notation add_call :=
  (GrantAdd privs database user host grant_option escape).
Local Notation revoke_call :=
  (GrantRevoke privs database user host grant_option).
Local Notation present_ test :=
  (present salt test name privileges grant database user host grant_option escape).
Local Notation absent_ test :=
  (absent salt test name privileges grant database user host grant_option escape).

(** X10: [absent] twice with the same arguments.  The grant is there (the
    check answers [True]), the revoke of the first, real run succeeds, and
    afterwards the check is falsy ([False], or [None] when another grant is
    left for the user).  Then the first run reports the change and the
    second, in either mode, makes no mutation and returns the "not present"
    record with empty [changes] and [result] [True]. *)
Theorem absent_twice_converges (test2 : bool) (revoked x : pyval)
    (s0 s1 s2 s3 : S) (tr : list call) :
  mysql_grant_exists salt privs database user host grant_option escape s0
    = (PyTrue, s1) →
  mysql_grant_revoke salt privs database user host grant_option s1
    = (revoked, s2) →
  truthy revoked = true →
  mysql_grant_exists salt privs database user host grant_option escape s2
    = (x, s3) →
  truthy x = false →
  let first := absent_ false (mkWorld s0 tr) in
  let second := absent_ test2 first.2 in
  changes first.1 = {[ name := "Absent" ]}
  ∧ result first.1 = Some true
  ∧ second.1 = ret_not_present name privs database user host
  ∧ changes second.1 = ∅
  ∧ result second.1 = Some true
  ∧ mutations (calls_made (absent_ test2) first.2) = [].
Proof.
  intros Hex Hrev Hok Hex2 Hx first second.
  pose proof (absent_run_revoke salt name privileges grant database user host
                grant_option escape PyTrue revoked s0 s1 s2 tr Hex eq_refl Hrev)
    as E1.
  rewrite Hok in E1. fold first in E1.
  pose proof (absent_run_skip salt name privileges grant database user host
                grant_option escape test2 x s2 s3
                (tr ++ [exists_call; revoke_call]) Hex2 Hx) as E2.
  assert (first.2 = mkWorld s2 (tr ++ [exists_call; revoke_call])) as Ew
    by (by rewrite E1).
  rewrite <- Ew in E2. fold second in E2.
  assert (calls_made (absent_ test2) first.2 = [exists_call]) as Ec.
  { apply calls_made_spec. fold second. by rewrite E2, Ew. }
  by rewrite Ec, E1, E2.
Qed.

(** X11: [absent] after [present], with the same arguments, takes back
    what [present] gave.  The backend starts without the grant, the add
    succeeds, the check then answers [True] and the revoke succeeds.  The
    two real runs make four calls in all: check, add, check, revoke, the
    revoke with the privileges, database, user, host and grant option of
    the add.  The first run records "Present", the second "Absent", both
    with [result] [True]. *)
Theorem present_then_absent (added revoked : pyval) (s0 s1 s2 s3 s4 : S)
    (tr : list call) :
  mysql_grant_exists salt privs database user host grant_option escape s0
    = (PyFalse, s1) →
  mysql_grant_add salt privs database user host grant_option escape s1
    = (added, s2) →
  truthy added = true →
  mysql_grant_exists salt privs database user host grant_option escape s2
    = (PyTrue, s3) →
  mysql_grant_revoke salt privs database user host grant_option s3
    = (revoked, s4) →
  truthy revoked = true →
  let first := present_ false (mkWorld s0 tr) in
  let second := absent_ false first.2 in
  second.2
  = mkWorld s4 (tr ++ [exists_call; add_call; exists_call; revoke_call])
  ∧ changes first.1 = {[ name := "Present" ]}
  ∧ result first.1 = Some true
  ∧ changes second.1 = {[ name := "Absent" ]}
  ∧ result second.1 = Some true.
Proof.
  intros Hex Hadd Hok Hex2 Hrev Hok2 first second.
  pose proof (present_run_add salt name privileges grant database user host
                grant_option escape added s0 s1 s2 tr Hex Hadd) as E1.
  rewrite Hok in E1. fold first in E1.
  pose proof (absent_run_revoke salt name privileges grant database user host
                grant_option escape PyTrue revoked s2 s3 s4
                (tr ++ [exists_call; add_call]) Hex2 eq_refl Hrev) as E2.
  rewrite Hok2 in E2.
  assert (first.2 = mkWorld s2 (tr ++ [exists_call; add_call])) as Ew
    by (by rewrite E1).
  rewrite <- Ew in E2. fold second in E2.
  rewrite E1, E2. cbn [fst snd]. rewrite <- app_assoc. done.
Qed.

End Sequences.

(** The grant is there and is revoked; afterwards another grant of frank
    is left, so the check answers [None]. *)
Lemma absent_twice_converges_witness :
  answer [PyTrue; PyTrue; PyNone] = (PyTrue, [PyTrue; PyNone])
  ∧ answer [PyTrue; PyNone] = (PyTrue, [PyNone])
  ∧ truthy PyTrue = true
  ∧ answer [PyNone] = (PyNone, [])
  ∧ truthy PyNone = false
  ∧ changes (frank_absent false (mkWorld [PyTrue; PyTrue; PyNone] [])).1
    = {[ "frank_exampledb" := "Absent" ]}
  ∧ changes
      (frank_absent false
         (frank_absent false (mkWorld [PyTrue; PyTrue; PyNone] [])).2).1 = ∅
  ∧ result
      (frank_absent false
         (frank_absent false (mkWorld [PyTrue; PyTrue; PyNone] [])).2).1
    = Some true.
Proof.
  do 5 (split; [reflexivity|]).
  pose proof
    (absent_twice_converges scripted "frank_exampledb" None
       (Some "select,insert,update") (Some "exampledb.*") (Some "frank")
       "localhost" false true false PyTrue PyNone
       [PyTrue; PyTrue; PyNone] [PyTrue; PyNone] [PyNone] [] []
       eq_refl eq_refl eq_refl eq_refl eq_refl) as (H1 & _ & _ & H4 & H5 & _).
  exact (conj H1 (conj H4 H5)).
Defined.

(** No grant, the add succeeds, the grant is there, the revoke succeeds. *)
Lemma present_then_absent_witness :
  answer [PyFalse; PyTrue; PyTrue; PyTrue] = (PyFalse, [PyTrue; PyTrue; PyTrue])
  ∧ answer [PyTrue; PyTrue; PyTrue] = (PyTrue, [PyTrue; PyTrue])
  ∧ answer [PyTrue; PyTrue] = (PyTrue, [PyTrue])
  ∧ answer [PyTrue] = (PyTrue, [])
  ∧ truthy PyTrue = true
  ∧ (frank_absent false
       (frank_present false (mkWorld [PyFalse; PyTrue; PyTrue; PyTrue] [])).2).2
    = mkWorld [] [frank_exists; frank_add; frank_exists; frank_revoke]
  ∧ changes
      (frank_absent false
         (frank_present false
            (mkWorld [PyFalse; PyTrue; PyTrue; PyTrue] [])).2).1
    = {[ "frank_exampledb" := "Absent" ]}.
Proof.
  do 5 (split; [reflexivity|]).
  pose proof
    (present_then_absent scripted "frank_exampledb" None
       (Some "select,insert,update") (Some "exampledb.*") (Some "frank")
       "localhost" false true PyTrue PyTrue
       [PyFalse; PyTrue; PyTrue; PyTrue] [PyTrue; PyTrue; PyTrue]
       [PyTrue; PyTrue] [PyTrue] [] []
       eq_refl eq_refl eq_refl eq_refl eq_refl eq_refl) as (H1 & _ & _ & H4 & _).
  exact (conj H1 H4).
Defined.

(** ** No change reported, nothing touched *)

(** X12: when [present] returns empty [changes] and does not report a
    failure, it has not tried to change the database: its only call was the
    existence check.  ([absent] has no such guarantee: after a failed
    revoke it returns empty [changes] with [result] [True].) *)
Theorem present_unchanged_untouched {S : Type} (salt : Salt S) (test : bool)
    (n : string) (privileges grant database user : option string)
    (host : string) (grant_option escape : bool) (s0 : S) (tr : list call) :
  changes (present salt test n privileges grant database user host
             grant_option escape (mkWorld s0 tr)).1 = ∅ →
  result (present salt test n privileges grant database user host
            grant_option escape (mkWorld s0 tr)).1 ≠ Some false →
  calls_made (present salt test n privileges grant database user host
                grant_option escape) (mkWorld s0 tr)
  = [GrantExists (effective_privileges privileges grant) database user host
       grant_option escape]
  ∧ mutations
      (calls_made (present salt test n privileges grant database user host
                     grant_option escape) (mkWorld s0 tr)) = [].
Proof.
  destruct (present_paths salt n privileges grant database user host
              grant_option escape test s0 tr)
    as [(s1 & E) | [(s1 & _ & E) | [(a & s2 & _ & E) | (r & a & s3 & _ & E)]]];
    rewrite E; cbn [fst]; intros Hch Hres.
  - by rewrite (calls_made_spec _ _ [_]) by (by rewrite E).
  - by rewrite (calls_made_spec _ _ [_]) by (by rewrite E).
  - destruct (truthy a); cbn in Hch, Hres; [|done].
    rewrite <- insert_empty in Hch. by apply insert_non_empty in Hch.
  - destruct (truthy a); cbn in Hch, Hres; [|done].
    rewrite <- insert_empty in Hch. by apply insert_non_empty in Hch.
Qed.

(** The grant is there: nothing reported, nothing touched. *)
Lemma present_unchanged_untouched_witness :
  changes (frank_present false (mkWorld [PyTrue] [])).1 = ∅
  ∧ result (frank_present false (mkWorld [PyTrue] [])).1 ≠ Some false
  ∧ calls_made (frank_present false) (mkWorld [PyTrue] []) = [frank_exists]
  ∧ mutations (calls_made (frank_present false) (mkWorld [PyTrue] [])) = [].
Proof.
  assert (changes (frank_present false (mkWorld [PyTrue] [])).1 = ∅) as Hch
    by reflexivity.
  assert (result (frank_present false (mkWorld [PyTrue] [])).1 ≠ Some false)
    as Hres by (by vm_compute).
  split; [exact Hch|]. split; [exact Hres|].
  exact (present_unchanged_untouched scripted false "frank_exampledb" None
           (Some "select,insert,update") (Some "exampledb.*") (Some "frank")
           "localhost" false true [PyTrue] [] Hch Hres).
Defined.
